(** * Stream proxy: the edge-worker handler (worker.js) and the standalone
      Express handler (server.js)

    Both handlers are embedded as executable functions.  What the host
    provides (the [URL] constructor, [fetch], the request and response
    objects) is described by the JavaScript and Fetch semantics the handlers
    rely on; the network itself is an oracle that the handlers are
    parameterised over. *)

From Stdlib Require Import String Ascii List ZArith Bool Lia DecimalString.
Import ListNotations.
Open Scope string_scope.
Open Scope Z_scope.

(** ** JavaScript values and completions *)

Module JS.

(** A thrown [Error] object: its constructor name and its [message]. *)
Record Error : Type := mkError { name : string; message : string }.

(** How an evaluation ends: with a value, or by throwing. *)
Inductive Completion (A : Type) : Type :=
| Normal (a : A)
| Throw (e : Error).
Arguments Normal {A} a.
Arguments Throw {A} e.

(** A computation that may call out: the outbound calls it made, in order,
    and how it ended.  [C] is the type of a recorded call. *)
Definition M (C A : Type) : Type := (list C * Completion A)%type.

Definition ret {C A} (a : A) : M C A := ([], Normal a).

Definition bind {C A B} (m : M C A) (k : A -> M C B) : M C B :=
  match m with
  | (l, Normal a) => let (l', r) := k a in ((l ++ l')%list, r)
  | (l, Throw e) => (l, Throw e)
  end.

(** [try { m } catch (err) { h err }] *)
Definition try_catch {C A} (m : M C A) (h : Error -> M C A) : M C A :=
  match m with
  | (l, Normal a) => (l, Normal a)
  | (l, Throw e) => let (l', r) := h e in ((l ++ l')%list, r)
  end.

(** An evaluation that makes no call. *)
Definition lift {C A} (c : Completion A) : M C A := ([], c).

Definition calls {C A} (m : M C A) : list C := fst m.
Definition completion {C A} (m : M C A) : Completion A := snd m.

(** Truthiness of a value that is a string or [null]/[undefined]:
    [null] and the empty string are falsy. *)
Definition truthy (v : option string) : bool :=
  match v with
  | None => false
  | Some EmptyString => false
  | Some (String _ _) => true
  end.

(** [a || b] on such values, for a right operand that cannot throw. *)
Definition or_else (a : option string) (b : string) : string :=
  match a with
  | Some (String c s) => String c s
  | _ => b
  end.

(** [String(v)]: [null] converts to the string ["null"]. *)
Definition ToString (v : option string) : string :=
  match v with
  | Some s => s
  | None => "null"
  end.

End JS.

Import JS.

Declare Scope js_scope.
Notation "x <- m ;; k" := (bind m (fun x => k))
  (at level 61, m at next level, right associativity) : js_scope.
Open Scope js_scope.

(** ** HTTP data: header lists, bodies, responses *)

Module Http.

Definition Headers : Type := list (string * string).

Definition lower_ascii (c : ascii) : ascii :=
  let n := nat_of_ascii c in
  if (Nat.leb 65 n && Nat.leb n 90)%bool then ascii_of_nat (n + 32) else c.

Fixpoint lower (s : string) : string :=
  match s with
  | EmptyString => EmptyString
  | String c r => String (lower_ascii c) (lower r)
  end.

(** Header names compare without regard to ASCII case. *)
Definition same_name (a b : string) : bool := String.eqb (lower a) (lower b).

(** [headers.get(name)]: the values of every header of that name, joined
    by a comma and a space; [null] when there is none. *)
Definition Headers_get (h : Headers) (field : string) : option string :=
  match filter (fun kv => same_name (fst kv) field) h with
  | [] => None
  | kv :: more => Some (String.concat ", " (map snd (kv :: more)))
  end.

(** A body: none, a string, or a stream given by its chunks. *)
Inductive Body : Type :=
| NoBody
| Text (s : string)
| Stream (chunks : list string).

Record Response : Type := mkResponse {
  status : Z;
  headers : Headers;
  body : Body
}.

(** Statuses that never carry a body. *)
Definition null_body_status (s : Z) : bool :=
  (s =? 101) || (s =? 103) || (s =? 204) || (s =? 205) || (s =? 304).

Definition has_body (b : Body) : bool :=
  match b with NoBody => false | _ => true end.

(** [new Response(body, { status, headers })] of the Fetch standard:
    a [RangeError] when the status is outside 200..599, a [TypeError] when
    a body is given together with a null-body status. *)
Definition Response_new (b : Body) (s : Z) (h : Headers) : Completion Response :=
  if (s <? 200) || (599 <? s) then
    Throw (mkError "RangeError"
      "Responses may only be constructed with status codes in the range 200 to 599, inclusive.")
  else if has_body b && null_body_status s then
    Throw (mkError "TypeError"
      "Response with null body status cannot have body")
  else Normal (mkResponse s h b).

(** A response that [Response_new] accepts as it is: a status in 200..599,
    and no body together with a null-body status. *)
Definition constructible (r : Response) : bool :=
  negb ((status r <? 200) || (599 <? status r))
  && negb (has_body (body r) && null_body_status (status r)).

End Http.

Import Http.

(** ** worker.js: the edge-worker handler *)

Module Worker.

(** What the handler reads of a parsed URL. *)
Record URL : Type := mkURL {
  origin : string;
  searchParams : list (string * string)
}.

(** [searchParams.get(name)]: the first value of that name, or [null]. *)
Fixpoint searchParams_get (p : list (string * string)) (key : string)
  : option string :=
  match p with
  | [] => None
  | (k, v) :: rest => if String.eqb k key then Some v else searchParams_get rest key
  end.

(** The inbound request. *)
Record Request : Type := mkRequest {
  method : string;
  url : string;
  req_headers : Headers
}.

(** The outbound call [fetch(target, { headers })]: the target and the
    header entries handed to [fetch]. *)
Record Outbound : Type := mkOutbound {
  out_target : string;
  out_headers : Headers
}.

Definition user_agent : string := "Mozilla/5.0 (compatible; StreamProxy/1.0)".

Section Handler.

(** The host: [new URL(s)], which throws on a string that does not
    parse, and the network behind [fetch]. *)
Variable URL_new : string -> Completion URL.
Variable net : Outbound -> Completion Response.

(** [await fetch(target, { headers })], recorded as an outbound call. *)
Definition fetch (target : string) (h : Headers) : M Outbound Response :=
  let o := mkOutbound target h in ([o], net o).

(** Line 5: [url.searchParams.get("ref") || new URL(target).origin + "/"]. *)
Definition referrer (url : URL) (target : option string) : M Outbound string :=
  if truthy (searchParams_get (searchParams url) "ref")
  then ret (ToString (searchParams_get (searchParams url) "ref"))
  else
    t <- lift (URL_new (ToString target)) ;;
    ret (origin t ++ "/").

(** [async fetch(request)] of worker.js. *)
Definition worker_fetch (request : Request) : M Outbound Response :=
  url <- lift (URL_new (url request)) ;;
  let target := searchParams_get (searchParams url) "url" in
  ref <- referrer url target ;;
  if negb (truthy target) then
    lift (Response_new (Text "Missing ?url=") 400 [])
  else
    try_catch
      (r <- lift (URL_new ref) ;;
       upstream <- fetch (ToString target)
                     [ ("User-Agent", user_agent);
                       ("Referer", ref);
                       ("Origin", origin r);
                       ("Range", or_else (Headers_get (req_headers request) "Range") "") ] ;;
       lift (Response_new (body upstream) (status upstream) (headers upstream)))
      (fun err =>
         lift (Response_new (Text ("Proxy error: " ++ message err)) 500 [])).

(** The request handed to [fetch] for a target [t], a referrer [ref] whose
    parsed form is [r], on the inbound request [request]. *)
Definition outbound_of (request : Request) (t ref : string) (r : URL) : Outbound :=
  mkOutbound t
    [ ("User-Agent", user_agent);
      ("Referer", ref);
      ("Origin", origin r);
      ("Range", or_else (Headers_get (req_headers request) "Range") "") ].

(** What the [try] block and its handler make of the network's answer. *)
Definition relay (answer : Completion Response) : Completion Response :=
  match answer with
  | Normal upstream =>
      match Response_new (body upstream) (status upstream) (headers upstream) with
      | Normal resp => Normal resp
      | Throw err => Response_new (Text ("Proxy error: " ++ message err)) 500 []
      end
  | Throw err => Response_new (Text ("Proxy error: " ++ message err)) 500 []
  end.

(** What the handler reads of the inbound request: the [url] and [ref]
    parameters of the parsed request URL, and the [Range] header. *)
Definition inbound_view (request : Request)
  : Completion (option string * option string) * option string :=
  (match URL_new (url request) with
   | Normal u => Normal (searchParams_get (searchParams u) "url",
                         searchParams_get (searchParams u) "ref")
   | Throw e => Throw e
   end,
   Headers_get (req_headers request) "Range").

(** The referrer the handler settles on, when line 5 does not throw. *)
Definition referrer_is (u : URL) (ref : string) : Prop :=
  let p := searchParams_get (searchParams u) "ref" in
  (truthy p = true /\ p = Some ref)
  \/ (truthy p = false /\
      exists t, URL_new (ToString (searchParams_get (searchParams u) "url")) = Normal t
                /\ ref = origin t ++ "/").

End Handler.

End Worker.

(** ** server.js: the standalone Express handler *)

Module Server.

(** A value read from [req.query]: [undefined] for a key that is not
    there, a string, or what the query parser builds for repeated and
    bracketed keys. *)
#[warnings="-register-all"] Inductive Value : Type :=
| Undefined
| QString (s : string)
| QArray (items : list Value)
| QObject (fields : list (string * Value)).

(** The inbound request: [req.query] and the request headers. *)
Record Req : Type := mkReq {
  query : list (string * Value);
  header_list : Headers
}.

(** [req.query.url]: the property, or [undefined]. *)
Fixpoint query_get (q : list (string * Value)) (key : string) : Value :=
  match q with
  | [] => Undefined
  | (k, v) :: rest => if String.eqb k key then v else query_get rest key
  end.

(** [!target] holds exactly on [undefined] and on the empty string; arrays
    and objects are truthy. *)
Definition to_boolean (v : Value) : bool :=
  match v with
  | Undefined => false
  | QString EmptyString => false
  | _ => true
  end.

(** What has been written to [res]. *)
Inductive Sent : Type :=
| NotSent
| SentText (s : string)
| Piped (b : Body).

(** The Express response object, as far as the handler touches it: the
    status, the header fields with their values ([None] for a [null] handed
    to [res.set]), and what has been written. *)
Record Res : Type := mkRes {
  statusCode : Z;
  res_headers : list (string * option string);
  sent : Sent
}.

(** The response object the framework hands to the handler. *)
Definition fresh_res : Res := mkRes 200 [] NotSent.

(** [res.status(code)] *)
Definition res_status (res : Res) (code : Z) : Res :=
  mkRes code (res_headers res) (sent res).

(** [res.set(field, value)]: replaces an earlier value of the field. *)
Definition res_set (res : Res) (field : string) (value : option string) : Res :=
  mkRes (statusCode res)
        (filter (fun kv => negb (same_name (fst kv) field)) (res_headers res)
           ++ [(field, value)])%list
        (sent res).

(** [body.pipe(res)] *)
Definition pipe (b : Body) (res : Res) : Res :=
  mkRes (statusCode res) (res_headers res) (Piped b).

(** The outbound call [fetch(target, { headers })]. *)
Record FetchCall : Type := mkFetchCall {
  call_target : Value;
  call_headers : Headers
}.

(** The request handed to [fetch] for a target. *)
Definition fetch_call_of (target : Value) : FetchCall :=
  mkFetchCall target
    [ ("User-Agent", "Mozilla/5.0");
      ("Referer", "https://fancode.com/");
      ("Origin", "https://fancode.com/") ].

Section Route.

(** The network behind node-fetch's [fetch]: how the call ends, with the
    upstream's response or by throwing (a target that is no absolute URL, a
    network failure). *)
Variable net : FetchCall -> Completion Response.

(** The headers [res.send] leaves on the response when it writes a text:
    on top of the fields set before, Express fills in Content-Type,
    Content-Length and ETag by its own rules.  The rules are the
    framework's; the handler is modelled for any. *)
Variable send_headers : Res -> string -> list (string * option string).

(** [res.send(text)].  The handler sends with status 400 or 500, which
    [send] leaves as it is. *)
Definition res_send (res : Res) (text : string) : Res :=
  mkRes (statusCode res) (send_headers res text) (SentText text).

(** The handler of [app.get("/stream_proxy", ...)]: the outbound calls it
    made and the response object it leaves. *)
Definition stream_proxy (req : Req) (res : Res) : list FetchCall * Res :=
  let target := query_get (query req) "url" in
  if negb (to_boolean target) then
    ([], res_send (res_status res 400) "Missing url param")
  else
    let o := mkFetchCall target
               [ ("User-Agent", "Mozilla/5.0");
                 ("Referer", "https://fancode.com/");
                 ("Origin", "https://fancode.com/") ] in
    match net o with
    | Normal response =>
        ([o], pipe (body response)
                (res_set res "Content-Type"
                   (Headers_get (headers response) "content-type")))
    | Throw err =>
        ([o], res_send (res_status res 500) ("Proxy error: " ++ message err))
    end.

End Route.

End Server.

(** ** A host to run the handlers on

    [URL_new] below parses absolute [http:] and [https:] URLs of the shape
    [scheme://host[:port][/path][?query][#fragment]], with a host made of
    letters, digits, dots and hyphens, and rejects every other string.  A
    string without a scheme (["null"], the empty string) is rejected as the
    URL standard rejects it when no base URL is given. *)

Module Host.

Import Worker.

Definition code (c : ascii) : nat := nat_of_ascii c.

Definition is_alpha (c : ascii) : bool :=
  ((Nat.leb 65 (code c) && Nat.leb (code c) 90)
   || (Nat.leb 97 (code c) && Nat.leb (code c) 122))%bool.

Definition is_digit (c : ascii) : bool :=
  (Nat.leb 48 (code c) && Nat.leb (code c) 57)%bool.

Definition is_scheme_char (c : ascii) : bool :=
  (is_alpha c || is_digit c
   || Ascii.eqb c "+" || Ascii.eqb c "-" || Ascii.eqb c ".")%bool.

Definition is_host_char (c : ascii) : bool :=
  (is_alpha c || is_digit c || Ascii.eqb c "-" || Ascii.eqb c ".")%bool.

Fixpoint all_chars (p : ascii -> bool) (s : string) : bool :=
  match s with
  | EmptyString => true
  | String c r => (p c && all_chars p r)%bool
  end.

(** The part of [s] before the first character satisfying [p], and the
    rest from that character on. *)
Fixpoint break (p : ascii -> bool) (s : string) : string * string :=
  match s with
  | EmptyString => (EmptyString, EmptyString)
  | String c r =>
      if p c then (EmptyString, s)
      else let (a, b) := break p r in (String c a, b)
  end.

(** [s.split(sep)] *)
Fixpoint split_on (sep : ascii) (s : string) : list string :=
  match s with
  | EmptyString => [EmptyString]
  | String c r =>
      if Ascii.eqb c sep then EmptyString :: split_on sep r
      else match split_on sep r with
           | [] => [String c EmptyString]
           | piece :: more => String c piece :: more
           end
  end.

Definition hex_value (c : ascii) : option nat :=
  if is_digit c then Some (code c - 48)%nat
  else if (Nat.leb 65 (code c) && Nat.leb (code c) 70)%bool then Some (code c - 55)%nat
  else if (Nat.leb 97 (code c) && Nat.leb (code c) 102)%bool then Some (code c - 87)%nat
  else None.

(** Decoding of a form-urlencoded name or value: [+] is a space, [%XY] is
    the byte with that hexadecimal code. *)
Fixpoint form_decode (s : string) : string :=
  match s with
  | EmptyString => EmptyString
  | String c rest =>
      if Ascii.eqb c "+" then String " " (form_decode rest)
      else if Ascii.eqb c "%" then
        match rest with
        | String a (String b r) =>
            match hex_value a, hex_value b with
            | Some x, Some y => String (ascii_of_nat (16 * x + y)) (form_decode r)
            | _, _ => String c (form_decode rest)
            end
        | _ => String c (form_decode rest)
        end
      else String c (form_decode rest)
  end.

(** [s] without its first character. *)
Definition after_first (s : string) : string :=
  match s with String _ r => r | EmptyString => EmptyString end.

(** The name and value pairs of a query string. *)
Definition parse_query (q : string) : list (string * string) :=
  flat_map
    (fun piece =>
       match piece with
       | EmptyString => []
       | _ =>
           let (k, v) := break (Ascii.eqb "=") piece in
           [(form_decode k, form_decode (after_first v))]
       end)
    (split_on "&" q).

(** What [new URL] throws; the text of the message is the host's own. *)
Definition invalid_url : Error := mkError "TypeError" "Invalid URL".

Definition default_port (scheme : string) : string :=
  if String.eqb scheme "https" then "443" else "80".

(** [new URL(s)] on that fragment. *)
Definition URL_new (s : string) : Completion URL :=
  let (scheme, rest) := break (fun c => negb (is_scheme_char c)) s in
  match scheme, rest with
  | String c0 _, String ":" (String "/" (String "/" r)) =>
      if (is_alpha c0
          && (String.eqb (lower scheme) "http" || String.eqb (lower scheme) "https"))%bool
      then
        let (authority, tail) :=
          break (fun c => (Ascii.eqb c "/" || Ascii.eqb c "?" || Ascii.eqb c "#")%bool) r in
        let (host, port) := break (Ascii.eqb ":") authority in
        let port := after_first port in
        let (_, from_query) := break (fun c => (Ascii.eqb c "?" || Ascii.eqb c "#")%bool) tail in
        let (q, _) := break (Ascii.eqb "#") from_query in
        match host with
        | EmptyString => Throw invalid_url
        | _ =>
            if (all_chars is_host_char host && all_chars is_digit port)%bool then
              Normal (mkURL
                (lower scheme ++ "://" ++ lower host
                   ++ (if (String.eqb port "" || String.eqb port (default_port (lower scheme)))%bool
                       then "" else ":" ++ port))
                (parse_query (after_first q)))
            else Throw invalid_url
        end
      else Throw invalid_url
  | _, _ => Throw invalid_url
  end.

End Host.

(** ** An application to run the Express handler on

    What [res.send] does to the headers of a response on which neither
    Content-Type nor ETag was set, under Express's default settings: the type
    is HTML in UTF-8, the length is the number of bytes of the text, and the
    weak ETag is the length in hexadecimal and the first 27 characters of
    the Base64 of the text's SHA-1 digest. *)

Module App.

Definition bytes_of (s : string) : list Z :=
  map (fun c => Z.of_nat (nat_of_ascii c)) (list_ascii_of_string s).

Definition word (x : Z) : Z := x mod 4294967296.

Definition rotl (n x : Z) : Z :=
  word (Z.lor (Z.shiftl x n) (Z.shiftr x (32 - n))).

(** The [n] low bytes of [x], most significant first. *)
Fixpoint be_bytes (n : nat) (x : Z) : list Z :=
  match n with
  | O => []
  | S m => (Z.shiftr x (8 * Z.of_nat m)) mod 256 :: be_bytes m x
  end.

(** SHA-1 padding: a one bit, zeros, and the bit length on eight bytes. *)
Definition pad (msg : list Z) : list Z :=
  let len := Z.of_nat (length msg) in
  let zeros := Z.to_nat ((55 - len) mod 64) in
  (msg ++ [128] ++ repeat 0 zeros ++ be_bytes 8 (8 * len))%list.

Fixpoint be_words (n : nat) (bs : list Z) : list Z :=
  match n, bs with
  | S m, a :: b :: c :: d :: rest =>
      (Z.shiftl a 24 + Z.shiftl b 16 + Z.shiftl c 8 + d) :: be_words m rest
  | _, _ => []
  end.

Definition word_at (l : list Z) (i : nat) : Z := nth i l 0.

(** The message schedule, newest word first: [n] more words. *)
Fixpoint extend (n : nat) (w : list Z) : list Z :=
  match n with
  | O => w
  | S m =>
      extend m
        (rotl 1 (Z.lxor (Z.lxor (word_at w 2) (word_at w 7))
                        (Z.lxor (word_at w 13) (word_at w 15))) :: w)
  end.

Definition State : Type := (Z * Z * Z * Z * Z)%type.

Definition round (t : Z) (st : State) (w : Z) : State :=
  let '(a, b, c, d, e) := st in
  let '(f, k) :=
    if t <? 20 then (Z.lor (Z.land b c) (Z.land (Z.lxor b 4294967295) d), 1518500249)
    else if t <? 40 then (Z.lxor (Z.lxor b c) d, 1859775393)
    else if t <? 60 then
      (Z.lor (Z.lor (Z.land b c) (Z.land b d)) (Z.land c d), 2400959708)
    else (Z.lxor (Z.lxor b c) d, 3395469782) in
  (word (rotl 5 a + f + e + k + w), a, rotl 30 b, c, d).

Fixpoint rounds (t : Z) (ws : list Z) (st : State) : State :=
  match ws with
  | [] => st
  | w :: rest => rounds (t + 1) rest (round t st w)
  end.

Definition block (h : State) (bs : list Z) : State :=
  let ws := rev (extend 64 (rev (be_words 16 bs))) in
  let '(h0, h1, h2, h3, h4) := h in
  let '(a, b, c, d, e) := rounds 0 ws h in
  (word (h0 + a), word (h1 + b), word (h2 + c), word (h3 + d), word (h4 + e)).

Fixpoint blocks (n : nat) (h : State) (bs : list Z) : State :=
  match n with
  | O => h
  | S m => blocks m (block h (firstn 64 bs)) (skipn 64 bs)
  end.

(** The SHA-1 digest of a byte string: twenty bytes. *)
Definition sha1 (msg : list Z) : list Z :=
  let p := pad msg in
  let '(h0, h1, h2, h3, h4) :=
    blocks (Nat.div (length p) 64)
      (1732584193, 4023233417, 2562383102, 271733878, 3285377520) p in
  (be_bytes 4 h0 ++ be_bytes 4 h1 ++ be_bytes 4 h2 ++ be_bytes 4 h3 ++ be_bytes 4 h4)%list.

Definition digit_of (alphabet : string) (i : Z) : string :=
  match String.get (Z.to_nat i) alphabet with
  | Some c => String c EmptyString
  | None => EmptyString
  end.

Definition base64_alphabet : string :=
  "ABCDEFGHIJKLMNOPQRSTUVWXYZabcdefghijklmnopqrstuvwxyz0123456789+/".

(** Base64 with padding; [n] bounds the number of three-byte groups. *)
Fixpoint base64 (n : nat) (bs : list Z) : string :=
  match n, bs with
  | S m, a :: b :: c :: rest =>
      digit_of base64_alphabet (Z.shiftr a 2)
      ++ digit_of base64_alphabet (Z.land (Z.shiftl a 4) 63 + Z.shiftr b 4)
      ++ digit_of base64_alphabet (Z.land (Z.shiftl b 2) 63 + Z.shiftr c 6)
      ++ digit_of base64_alphabet (Z.land c 63)
      ++ base64 m rest
  | S _, [a; b] =>
      digit_of base64_alphabet (Z.shiftr a 2)
      ++ digit_of base64_alphabet (Z.land (Z.shiftl a 4) 63 + Z.shiftr b 4)
      ++ digit_of base64_alphabet (Z.land (Z.shiftl b 2) 63)
      ++ "="
  | S _, [a] =>
      digit_of base64_alphabet (Z.shiftr a 2)
      ++ digit_of base64_alphabet (Z.land (Z.shiftl a 4) 63)
      ++ "=="
  | _, _ => EmptyString
  end.

(** [x.toString(16)]; [fuel] bounds the number of digits. *)
Fixpoint hex (fuel : nat) (x : Z) : string :=
  match fuel with
  | O => EmptyString
  | S m =>
      if x <? 16 then digit_of "0123456789abcdef" x
      else hex m (x / 16) ++ digit_of "0123456789abcdef" (x mod 16)
  end.

(** The double quote character. *)
Definition quote : string := String (ascii_of_nat 34) EmptyString.

(** The weak entity tag of a text. *)
Definition etag (text : string) : string :=
  "W/" ++ quote
  ++ hex 16 (Z.of_nat (String.length text)) ++ "-"
  ++ substring 0 27 (base64 7 (sha1 (bytes_of text)))
  ++ quote.

(** The headers after [res.send(text)]. *)
Definition send_headers (res : Server.Res) (text : string)
  : list (string * option string) :=
  Server.res_headers
    (Server.res_set
       (Server.res_set
          (Server.res_set res "Content-Type" (Some "text/html; charset=utf-8"))
          "Content-Length"
          (Some (NilZero.string_of_uint (Nat.to_uint (String.length text)))))
       "ETag" (Some (etag text))).

End App.

(** ** Concrete requests and upstream answers *)

Module Samples.

(** An upstream answer with a non-2xx status. *)
Definition not_found : Response :=
  mkResponse 404
    [ ("Content-Type", "video/mp2t"); ("X-Cache", "HIT") ]
    (Stream [ "seg"; "ment" ]).

Definition connection_refused : Error := mkError "TypeError" "fetch failed".

(** [GET https://proxy.example/?url=https://example.com/live/a.m3u8]
    with [Range: bytes=0-99]. *)
Definition worker_get : Worker.Request :=
  Worker.mkRequest "GET"
    "https://proxy.example/?url=https://example.com/live/a.m3u8"
    [ ("Range", "bytes=0-99") ].

(** The same request without a Range header. *)
Definition worker_get_no_range : Worker.Request :=
  Worker.mkRequest "GET"
    "https://proxy.example/?url=https://example.com/live/a.m3u8" [].

(** [GET https://proxy.example/]: neither [url] nor [ref]. *)
Definition worker_bare : Worker.Request :=
  Worker.mkRequest "GET" "https://proxy.example/" [].

(** [GET https://proxy.example/?ref=https://site.example/]: [ref] only. *)
Definition worker_ref_only : Worker.Request :=
  Worker.mkRequest "GET" "https://proxy.example/?ref=https://site.example/" [].

(** [GET https://proxy.example/?url=not-a-url]: a target that is no URL. *)
Definition worker_malformed : Worker.Request :=
  Worker.mkRequest "GET" "https://proxy.example/?url=not-a-url" [].

(** [GET /stream_proxy?url=https://example.com/live/a.m3u8]
    with [Range: bytes=0-99]. *)
Definition server_get : Server.Req :=
  Server.mkReq
    [ ("url", Server.QString "https://example.com/live/a.m3u8") ]
    [ ("Range", "bytes=0-99") ].

(** Another request for the same target and range that differs in
    everything else: method, path, further parameters and headers. *)
Definition worker_post : Worker.Request :=
  Worker.mkRequest "POST"
    "https://proxy.example/play?quality=hd&url=https://example.com/live/a.m3u8"
    [ ("Accept", "*/*"); ("range", "bytes=0-99") ].

(** Another request for the same target with further parameters. *)
Definition server_get_again : Server.Req :=
  Server.mkReq
    [ ("ref", Server.QString "https://site.example/");
      ("url", Server.QString "https://example.com/live/a.m3u8") ]
    [ ("Accept", "*/*") ].

(** [GET /stream_proxy]: no [url]. *)
Definition server_bare : Server.Req := Server.mkReq [] [].

End Samples.

(** ** Further requests and answers *)

Module Edge.

(** An upstream answer with a status that [Response_new] refuses. *)
Definition status_999 : Response :=
  mkResponse 999 [ ("Content-Type", "text/html") ] (Stream [ "denied" ]).

(** [GET https://proxy.example/?url=https://example.com/live/a.m3u8&ref=nowhere]:
    a [ref] that is no URL. *)
Definition worker_bad_ref : Worker.Request :=
  Worker.mkRequest "GET"
    "https://proxy.example/?url=https://example.com/live/a.m3u8&ref=nowhere" [].

(** [GET https://proxy.example/?url=not-a-url&ref=https://site.example/page]:
    a target that is no URL, with a [ref]. *)
Definition worker_override : Worker.Request :=
  Worker.mkRequest "GET"
    "https://proxy.example/?url=not-a-url&ref=https://site.example/page"
    [ ("Range", "bytes=100-") ].

(** [GET https://proxy.example/?url=&ref=https://site.example/]: an empty
    [url]. *)
Definition worker_empty_url : Worker.Request :=
  Worker.mkRequest "GET" "https://proxy.example/?url=&ref=https://site.example/" [].

(** [GET /stream_proxy?url=]: an empty [url]. *)
Definition server_empty_url : Server.Req :=
  Server.mkReq [ ("url", Server.QString "") ] [].

(** [GET /stream_proxy?url=a&url=b]: a repeated [url]. *)
Definition server_repeated_url : Server.Req :=
  Server.mkReq
    [ ("url", Server.QArray [ Server.QString "a"; Server.QString "b" ]) ] [].

End Edge.

(** * Properties *)

(** ** Strings and header lists *)

Lemma prefix_app (s t : string) : String.prefix s (s ++ t) = true.
Proof.
  induction s as [|c s IH]; simpl.
  - now destruct t.
  - destruct (ascii_dec c c) as [_|ne]; [exact IH | now elim ne].
Qed.

Lemma truthy_ToString (v : option string) :
  truthy v = true -> v = Some (ToString v) /\ ToString v <> "".
Proof.
  destruct v as [[|c s]|]; simpl; intro H; try discriminate.
  split; [reflexivity | discriminate].
Qed.

Lemma or_else_empty (v : option string) :
  or_else v "" = match v with Some r => r | None => "" end.
Proof. now destruct v as [[|c s]|]. Qed.

(** ** The edge-worker handler, path by path *)

Section WorkerPaths.

Import Worker.

Variable URL_new : string -> Completion URL.
Variable net : Outbound -> Completion Response.

Lemma referrer_spec (u : URL) (ref : string) :
  referrer_is URL_new u ref <->
  referrer URL_new u (searchParams_get (searchParams u) "url") = ([], Normal ref).
Proof.
  unfold referrer_is, referrer, bind, lift, ret.
  destruct (truthy (searchParams_get (searchParams u) "ref")) eqn:Href.
  - destruct (truthy_ToString _ Href) as [Hs _]. split.
    + intros [[_ H]|[H _]]; [|discriminate]. now rewrite H.
    + intro H. left. split; [reflexivity|]. rewrite Hs. congruence.
  - split.
    + intros [[H _]|[_ [t [Ht ->]]]]; [discriminate|]. now rewrite Ht.
    + intro H. right. split; [reflexivity|].
      destruct (URL_new (ToString (searchParams_get (searchParams u) "url")))
        as [t|e]; [|discriminate].
      exists t. split; [reflexivity|]. simpl in H. congruence.
Qed.

(** The request URL does not parse: line 3 throws, nothing is caught. *)
Lemma worker_request_url_throws (request : Request) (e : Error) :
  URL_new (url request) = Throw e -> worker_fetch URL_new net request = ([], Throw e).
Proof. intro H. unfold worker_fetch, bind, lift. now rewrite H. Qed.

(** No [ref] parameter and a target that does not parse: line 5 throws
    before the missing-target check and outside the [try]. *)
Lemma worker_line5_throws (request : Request) (u : URL) (e : Error) :
  URL_new (url request) = Normal u ->
  truthy (searchParams_get (searchParams u) "ref") = false ->
  URL_new (ToString (searchParams_get (searchParams u) "url")) = Throw e ->
  worker_fetch URL_new net request = ([], Throw e).
Proof.
  intros Hu Href Ht.
  unfold worker_fetch, referrer, bind, lift. rewrite Hu, Href, Ht. reflexivity.
Qed.

(** A falsy target and a referrer: the 400 response, without any call. *)
Lemma worker_missing_target (request : Request) (u : URL) (ref : string) :
  URL_new (url request) = Normal u ->
  truthy (searchParams_get (searchParams u) "url") = false ->
  referrer_is URL_new u ref ->
  worker_fetch URL_new net request = ([], Normal (mkResponse 400 [] (Text "Missing ?url="))).
Proof.
  intros Hu Ht Href. apply referrer_spec in Href.
  unfold worker_fetch, bind, lift. rewrite Hu, Href, Ht. reflexivity.
Qed.

(** A target and a referrer that does not parse: caught, no call made. *)
Lemma worker_referrer_unparsed (request : Request) (u : URL) (ref : string) (e : Error) :
  URL_new (url request) = Normal u ->
  truthy (searchParams_get (searchParams u) "url") = true ->
  referrer_is URL_new u ref ->
  URL_new ref = Throw e ->
  worker_fetch URL_new net request
  = ([], Normal (mkResponse 500 [] (Text ("Proxy error: " ++ message e)))).
Proof.
  intros Hu Ht Href Hr. apply referrer_spec in Href.
  unfold worker_fetch, bind, lift, try_catch. rewrite Hu, Href, Ht, Hr. reflexivity.
Qed.

(** A target and a referrer that parses: exactly one call, relayed. *)
Lemma worker_calls_out (request : Request) (u : URL) (ref : string) (r : URL) :
  URL_new (url request) = Normal u ->
  truthy (searchParams_get (searchParams u) "url") = true ->
  referrer_is URL_new u ref ->
  URL_new ref = Normal r ->
  let o := outbound_of request (ToString (searchParams_get (searchParams u) "url")) ref r in
  worker_fetch URL_new net request = ([o], relay (net o)).
Proof.
  intros Hu Ht Href Hr o. apply referrer_spec in Href.
  unfold worker_fetch, bind, lift, try_catch, fetch. rewrite Hu, Href, Ht, Hr.
  subst o. unfold outbound_of, relay.
  destruct (net _) as [upstream|err]; cbv beta iota zeta; cbn [app negb];
    [|reflexivity].
  destruct (Response_new (body upstream) (status upstream) (headers upstream));
    reflexivity.
Qed.

(** Every call the handler makes comes from the last path. *)
Lemma worker_call_inv (request : Request) (o : Outbound) :
  In o (calls (worker_fetch URL_new net request)) ->
  exists u ref r,
    URL_new (url request) = Normal u
    /\ truthy (searchParams_get (searchParams u) "url") = true
    /\ referrer_is URL_new u ref
    /\ URL_new ref = Normal r
    /\ o = outbound_of request (ToString (searchParams_get (searchParams u) "url")) ref r
    /\ worker_fetch URL_new net request = ([o], relay (net o)).
Proof.
  intro Hin.
  destruct (URL_new (url request)) as [u|e] eqn:Hu.
  2:{ rewrite (worker_request_url_throws _ _ Hu) in Hin. destruct Hin. }
  destruct (referrer URL_new u (searchParams_get (searchParams u) "url"))
    as [l [ref|e]] eqn:Href.
  2:{ unfold worker_fetch, bind, lift in Hin. rewrite Hu, Href in Hin.
      unfold referrer, bind, lift, ret in Href.
      destruct (truthy (searchParams_get (searchParams u) "ref")); [discriminate|].
      destruct (URL_new (ToString (searchParams_get (searchParams u) "url")));
        inversion Href; subst; destruct Hin. }
  assert (l = []) as ->.
  { unfold referrer, bind, lift, ret in Href.
    destruct (truthy (searchParams_get (searchParams u) "ref")); [congruence|].
    destruct (URL_new (ToString (searchParams_get (searchParams u) "url")));
      inversion Href; reflexivity. }
  apply referrer_spec in Href.
  destruct (truthy (searchParams_get (searchParams u) "url")) eqn:Ht.
  2:{ rewrite (worker_missing_target _ _ _ Hu Ht Href) in Hin. destruct Hin. }
  destruct (URL_new ref) as [r|e] eqn:Hr.
  2:{ rewrite (worker_referrer_unparsed _ _ _ _ Hu Ht Href Hr) in Hin. destruct Hin. }
  pose proof (worker_calls_out _ _ _ _ Hu Ht Href Hr) as Hrun. cbv zeta in Hrun.
  rewrite Hrun in Hin. destruct Hin as [<-|[]].
  exists u, ref, r. repeat split; assumption.
Qed.

End WorkerPaths.

(** ** The Express handler, path by path *)

Section ServerPaths.

Import Server.

Variable net : FetchCall -> Completion Response.
Variable send_headers : Res -> string -> list (string * option string).

(** A falsy target: status 400, no call. *)
Lemma server_missing_target (req : Req) (res : Res) :
  to_boolean (query_get (query req) "url") = false ->
  stream_proxy net send_headers req res
  = ([], res_send send_headers (res_status res 400) "Missing url param").
Proof. intro H. unfold stream_proxy. now rewrite H. Qed.

(** A truthy target: exactly one call, whose answer decides the response. *)
Lemma server_calls_out (req : Req) (res : Res) :
  to_boolean (query_get (query req) "url") = true ->
  let o := fetch_call_of (query_get (query req) "url") in
  stream_proxy net send_headers req res
  = ([o], match net o with
          | Normal response =>
              pipe (body response)
                (res_set res "Content-Type"
                   (Headers_get (headers response) "content-type"))
          | Throw err =>
              res_send send_headers (res_status res 500) ("Proxy error: " ++ message err)
          end).
Proof.
  intros H o. unfold stream_proxy. rewrite H. cbn [negb].
  fold (fetch_call_of (query_get (query req) "url")). fold o.
  now destruct (net o).
Qed.

Lemma server_call_inv (req : Req) (res : Res) (o : FetchCall) :
  In o (fst (stream_proxy net send_headers req res)) ->
  to_boolean (query_get (query req) "url") = true
  /\ o = fetch_call_of (query_get (query req) "url").
Proof.
  destruct (to_boolean (query_get (query req) "url")) eqn:H.
  - rewrite (server_calls_out _ _ H). intros [<-|[]]. now split.
  - rewrite (server_missing_target _ _ H). intros [].
Qed.

(** The url parameter is absent: status 400 and the fixed text. *)
Lemma server_missing_url_400 (req : Req) :
  query_get (query req) "url" = Undefined ->
  statusCode (snd (stream_proxy net send_headers req fresh_res)) = 400
  /\ sent (snd (stream_proxy net send_headers req fresh_res))
     = SentText "Missing url param".
Proof.
  intro H. rewrite server_missing_target; [now split | now rewrite H].
Qed.

End ServerPaths.

Lemma Response_new_constructible (r : Response) :
  constructible r = true ->
  Response_new (body r) (status r) (headers r) = Normal r.
Proof.
  unfold constructible, Response_new. intro H.
  apply andb_true_iff in H. destruct H as [H1 H2].
  apply negb_true_iff in H1, H2. rewrite H1, H2. now destruct r.
Qed.

(** An upstream response that [Response_new] refuses is reported like a
    failed fetch. *)
Lemma worker_upstream_refused :
  forall URL_new net request o upstream err,
    In o (calls (Worker.worker_fetch URL_new net request)) ->
    net o = Normal upstream ->
    Response_new (body upstream) (status upstream) (headers upstream) = Throw err ->
    completion (Worker.worker_fetch URL_new net request)
    = Normal (mkResponse 500 [] (Text ("Proxy error: " ++ message err))).
Proof.
  intros URL_new net request o upstream err Hin Hnet Hnew.
  destruct (worker_call_inv _ _ _ _ Hin) as (u & ref & r & _ & _ & _ & _ & _ & Hrun).
  rewrite Hrun, Hnet. unfold completion, Worker.relay. cbn [snd].
  rewrite Hnew. reflexivity.
Qed.

(** ** Runs on concrete requests *)

Example worker_ref_only_400 :
  forall net,
    Worker.worker_fetch Host.URL_new net Samples.worker_ref_only
    = ([], Normal (mkResponse 400 [] (Text "Missing ?url="))).
Proof. intro net. reflexivity. Qed.

Example server_bare_400 :
  forall net,
    Server.stream_proxy net App.send_headers Samples.server_bare Server.fresh_res
    = ([], Server.mkRes 400
             [ ("Content-Type", Some "text/html; charset=utf-8");
               ("Content-Length", Some "17");
               ("ETag", Some ("W/" ++ App.quote ++ "11-eGkku7Up/P2KvCdvPWM6t203ack"
                                   ++ App.quote)) ]
             (Server.SentText "Missing url param")).
Proof. intro net. vm_compute. reflexivity. Qed.

Example sha1_abc :
  App.base64 7 (App.sha1 (App.bytes_of "abc")) = "qZk+NkcGgWq6PiVxeFDCbJzQ2J0=".
Proof. vm_compute. reflexivity. Qed.

Example worker_get_relayed :
  Worker.worker_fetch Host.URL_new (fun _ => Normal Samples.not_found) Samples.worker_get
  = ([ Worker.mkOutbound "https://example.com/live/a.m3u8"
         [ ("User-Agent", "Mozilla/5.0 (compatible; StreamProxy/1.0)");
           ("Referer", "https://example.com/");
           ("Origin", "https://example.com");
           ("Range", "bytes=0-99") ] ],
     Normal Samples.not_found).
Proof. reflexivity. Qed.

(** * The claims *)

(** C1, on the edge-worker variant: a request with neither [url] nor [ref]
    ends in an exception thrown by line 5, not in the 400 response the claim
    states; no response is produced. *)
Theorem C1_worker_missing_url_throws :
  forall net,
    Worker.worker_fetch Host.URL_new net Samples.worker_bare
    = ([], Throw Host.invalid_url).
Proof. intro net. reflexivity. Qed.

(** C2 as stated fails on an upstream status outside 200..599: the upstream
    answers the outbound call with status 999, [new Response] refuses that
    status inside the [try], and the handler returns status 500. *)
Lemma C2_status_999_not_passed :
  exists o resp,
    calls (Worker.worker_fetch Host.URL_new (fun _ => Normal Edge.status_999)
             Samples.worker_get) = [o]
    /\ status Edge.status_999 = 999
    /\ completion (Worker.worker_fetch Host.URL_new (fun _ => Normal Edge.status_999)
                     Samples.worker_get) = Normal resp
    /\ status resp = 500
    /\ status resp <> status Edge.status_999.
Proof.
  do 2 eexists. split; [reflexivity|]. split; [reflexivity|].
  split; [reflexivity|]. split; [reflexivity|]. discriminate.
Qed.

(** C2, amended: in the edge-worker variant, when the upstream answers the
    outbound call with a response whose status S is in 200..599 and which
    has no body together with a null-body status, the handler returns a
    response with status S, the upstream headers and the upstream body. *)
Theorem C2_worker_pass_through :
  forall URL_new net request o upstream,
    In o (calls (Worker.worker_fetch URL_new net request)) ->
    net o = Normal upstream ->
    constructible upstream = true ->
    exists resp,
      completion (Worker.worker_fetch URL_new net request) = Normal resp
      /\ status resp = status upstream
      /\ headers resp = headers upstream
      /\ body resp = body upstream.
Proof.
  intros URL_new net request o upstream Hin Hnet Hok.
  destruct (worker_call_inv _ _ _ _ Hin) as (u & ref & r & _ & _ & _ & _ & _ & Hrun).
  exists upstream. rewrite Hrun, Hnet. unfold completion, Worker.relay. cbn [snd].
  rewrite (Response_new_constructible _ Hok). repeat split.
Qed.

Lemma C2_worker_pass_through_witness :
  exists resp,
    completion (Worker.worker_fetch Host.URL_new (fun _ => Normal Samples.not_found)
                  Samples.worker_get) = Normal resp
    /\ status resp = 404
    /\ headers resp = [ ("Content-Type", "video/mp2t"); ("X-Cache", "HIT") ]
    /\ body resp = Stream [ "seg"; "ment" ].
Proof.
  apply (C2_worker_pass_through Host.URL_new (fun _ => Normal Samples.not_found)
           Samples.worker_get
           (Worker.outbound_of Samples.worker_get "https://example.com/live/a.m3u8"
              "https://example.com/" (Worker.mkURL "https://example.com" []))
           Samples.not_found).
  - left. reflexivity.
  - reflexivity.
  - reflexivity.
Defined.

(** C3: in both variants, when the outbound fetch throws an exception with
    message m, the handler answers with status 500 and the body
    "Proxy error: " followed by m; that body starts with "Proxy error: ". *)
Theorem C3_fetch_throws_500 :
  (forall URL_new net request o err,
      In o (calls (Worker.worker_fetch URL_new net request)) ->
      net o = Throw err ->
      completion (Worker.worker_fetch URL_new net request)
      = Normal (mkResponse 500 [] (Text ("Proxy error: " ++ message err))))
  /\ (forall net send_headers req res o err,
         In o (fst (Server.stream_proxy net send_headers req res)) ->
         net o = Throw err ->
         Server.statusCode (snd (Server.stream_proxy net send_headers req res)) = 500
         /\ Server.sent (snd (Server.stream_proxy net send_headers req res))
            = Server.SentText ("Proxy error: " ++ message err))
  /\ (forall m, String.prefix "Proxy error: " ("Proxy error: " ++ m) = true).
Proof.
  split; [|split].
  - intros URL_new net request o err Hin Hnet.
    destruct (worker_call_inv _ _ _ _ Hin) as (u & ref & r & _ & _ & _ & _ & _ & Hrun).
    rewrite Hrun, Hnet. reflexivity.
  - intros net send_headers req res o err Hin Hnet.
    destruct (server_call_inv _ _ _ _ _ Hin) as [Ht ->].
    rewrite (server_calls_out net send_headers _ res Ht).
    cbv zeta. rewrite Hnet. split; reflexivity.
  - intro m. apply prefix_app.
Qed.

Lemma C3_fetch_throws_500_witness :
  completion (Worker.worker_fetch Host.URL_new (fun _ => Throw Samples.connection_refused)
                Samples.worker_get)
  = Normal (mkResponse 500 [] (Text "Proxy error: fetch failed"))
  /\ Server.statusCode
       (snd (Server.stream_proxy (fun _ => Throw Samples.connection_refused)
               App.send_headers
               Samples.server_get Server.fresh_res)) = 500
  /\ Server.sent
       (snd (Server.stream_proxy (fun _ => Throw Samples.connection_refused)
               App.send_headers
               Samples.server_get Server.fresh_res))
     = Server.SentText "Proxy error: fetch failed".
Proof.
  split.
  - apply (proj1 C3_fetch_throws_500 Host.URL_new
             (fun _ => Throw Samples.connection_refused) Samples.worker_get
             (Worker.outbound_of Samples.worker_get "https://example.com/live/a.m3u8"
                "https://example.com/" (Worker.mkURL "https://example.com" []))
             Samples.connection_refused).
    + left. reflexivity.
    + reflexivity.
  - apply (proj1 (proj2 C3_fetch_throws_500)
             (fun _ => Throw Samples.connection_refused) App.send_headers Samples.server_get
             Server.fresh_res
             (Server.fetch_call_of (Server.QString "https://example.com/live/a.m3u8"))
             Samples.connection_refused).
    + left. reflexivity.
    + reflexivity.
Defined.

(** C4, on the edge-worker variant: a request whose [url] is not a URL and
    that has no [ref] ends in the exception thrown by line 5, outside the
    try/catch, not in the 500 response the claim states. *)
Theorem C4_worker_malformed_target_throws :
  forall net,
    Worker.worker_fetch Host.URL_new net Samples.worker_malformed
    = ([], Throw Host.invalid_url).
Proof. intro net. reflexivity. Qed.

(** C5 as stated fails on the standalone server: the inbound request carries
    [Range: bytes=0-99] and the headers handed to [fetch] hold no Range. *)
Lemma C5_server_drops_range :
  exists o,
    fst (Server.stream_proxy (fun _ => Normal Samples.not_found) App.send_headers
           Samples.server_get Server.fresh_res) = [o]
    /\ Headers_get (Server.header_list Samples.server_get) "Range" = Some "bytes=0-99"
    /\ Headers_get (Server.call_headers o) "Range" = None
    /\ Headers_get (Server.call_headers o) "Range" <> Some "bytes=0-99".
Proof.
  eexists. split; [reflexivity|]. repeat split. discriminate.
Qed.

(** C5, amended: the headers the edge-worker handler hands to [fetch] always
    hold a Range entry, equal to the inbound Range header when there is one
    and to the empty string when there is none; the headers the standalone
    server hands to [fetch] hold no Range entry. *)
Theorem C5_range_forwarding :
  (forall URL_new net request o,
      In o (calls (Worker.worker_fetch URL_new net request)) ->
      (forall r, Headers_get (Worker.req_headers request) "Range" = Some r ->
                 Headers_get (Worker.out_headers o) "Range" = Some r)
      /\ (Headers_get (Worker.req_headers request) "Range" = None ->
          Headers_get (Worker.out_headers o) "Range" = Some ""))
  /\ (forall net send_headers req res o,
         In o (fst (Server.stream_proxy net send_headers req res)) ->
         Headers_get (Server.call_headers o) "Range" = None).
Proof.
  split.
  - intros URL_new net request o Hin.
    destruct (worker_call_inv _ _ _ _ Hin) as (u & ref & r & _ & _ & _ & _ & -> & _).
    assert (Hget : Headers_get
                     (Worker.out_headers
                        (Worker.outbound_of request
                           (ToString (Worker.searchParams_get (Worker.searchParams u) "url"))
                           ref r)) "Range"
                   = Some (or_else (Headers_get (Worker.req_headers request) "Range") ""))
      by reflexivity.
    rewrite Hget, or_else_empty. split.
    + intros v Hv. now rewrite Hv.
    + intro Hv. now rewrite Hv.
  - intros net send_headers req res o Hin.
    destruct (server_call_inv _ _ _ _ _ Hin) as [_ ->]. reflexivity.
Qed.

Lemma C5_range_forwarding_witness :
  Headers_get
    (Worker.out_headers
       (Worker.outbound_of Samples.worker_get "https://example.com/live/a.m3u8"
          "https://example.com/" (Worker.mkURL "https://example.com" [])))
    "Range" = Some "bytes=0-99"
  /\ Headers_get
       (Worker.out_headers
          (Worker.outbound_of Samples.worker_get_no_range "https://example.com/live/a.m3u8"
             "https://example.com/" (Worker.mkURL "https://example.com" [])))
       "Range" = Some ""
  /\ Headers_get
       (Server.call_headers
          (Server.fetch_call_of (Server.QString "https://example.com/live/a.m3u8")))
       "Range" = None.
Proof.
  split; [|split].
  - apply (proj1 (proj1 C5_range_forwarding Host.URL_new (fun _ => Normal Samples.not_found)
                    Samples.worker_get _ (or_introl eq_refl))).
    reflexivity.
  - apply (proj2 (proj1 C5_range_forwarding Host.URL_new (fun _ => Normal Samples.not_found)
                    Samples.worker_get_no_range _ (or_introl eq_refl))).
    reflexivity.
  - apply (proj2 C5_range_forwarding (fun _ => Normal Samples.not_found)
             App.send_headers
             Samples.server_get Server.fresh_res _ (or_introl eq_refl)).
Defined.

(** C6 as stated fails on the standalone server: the target's origin is
    [https://example.com], the Referer sent is [https://fancode.com/]. *)
Lemma C6_server_fixed_referer :
  exists o t,
    fst (Server.stream_proxy (fun _ => Normal Samples.not_found) App.send_headers
           Samples.server_get Server.fresh_res) = [o]
    /\ Server.call_target o = Server.QString "https://example.com/live/a.m3u8"
    /\ Host.URL_new "https://example.com/live/a.m3u8" = Normal t
    /\ Worker.origin t = "https://example.com"
    /\ Headers_get (Server.call_headers o) "Referer" = Some "https://fancode.com/"
    /\ Headers_get (Server.call_headers o) "Referer" <> Some (Worker.origin t ++ "/").
Proof.
  do 2 eexists. split; [reflexivity|]. repeat split. discriminate.
Qed.

(** C6, amended: in the edge-worker variant, when the request has no
    non-empty [ref] parameter and its target parses, every outbound request
    carries as Referer the target's origin followed by "/"; the standalone
    server always sends the Referer [https://fancode.com/]. *)
Theorem C6_referer :
  (forall URL_new net request u t o,
      URL_new (Worker.url request) = Normal u ->
      truthy (Worker.searchParams_get (Worker.searchParams u) "ref") = false ->
      URL_new (ToString (Worker.searchParams_get (Worker.searchParams u) "url")) = Normal t ->
      In o (calls (Worker.worker_fetch URL_new net request)) ->
      Headers_get (Worker.out_headers o) "Referer" = Some (Worker.origin t ++ "/"))
  /\ (forall net send_headers req res o,
         In o (fst (Server.stream_proxy net send_headers req res)) ->
         Headers_get (Server.call_headers o) "Referer" = Some "https://fancode.com/").
Proof.
  split.
  - intros URL_new net request u t o Hu Href Ht Hin.
    destruct (worker_call_inv _ _ _ _ Hin) as (u' & ref & r & Hu' & _ & Hr & _ & -> & _).
    rewrite Hu in Hu'. injection Hu' as <-.
    destruct Hr as [[Hr _]|[_ (t' & Ht' & ->)]]; [congruence|].
    rewrite Ht in Ht'. injection Ht' as <-. reflexivity.
  - intros net send_headers req res o Hin.
    destruct (server_call_inv _ _ _ _ _ Hin) as [_ ->]. reflexivity.
Qed.

Lemma C6_referer_witness :
  Headers_get
    (Worker.out_headers
       (Worker.outbound_of Samples.worker_get "https://example.com/live/a.m3u8"
          "https://example.com/" (Worker.mkURL "https://example.com" [])))
    "Referer" = Some "https://example.com/"
  /\ Headers_get
       (Server.call_headers
          (Server.fetch_call_of (Server.QString "https://example.com/live/a.m3u8")))
       "Referer" = Some "https://fancode.com/".
Proof.
  split.
  - apply (proj1 C6_referer Host.URL_new (fun _ => Normal Samples.not_found)
             Samples.worker_get
             (Worker.mkURL "https://proxy.example"
                [ ("url", "https://example.com/live/a.m3u8") ])
             (Worker.mkURL "https://example.com" []) _
             eq_refl eq_refl eq_refl (or_introl eq_refl)).
  - apply (proj2 C6_referer (fun _ => Normal Samples.not_found) App.send_headers
             Samples.server_get Server.fresh_res _ (or_introl eq_refl)).
Defined.

(** C7: in both variants, every outbound request carries a non-empty
    User-Agent header, the variant's fixed string, and a Referer header; and
    an outbound request is made whenever the target is there and, in the
    edge worker, the referrer parses. *)
Theorem C7_user_agent_and_referer :
  (forall URL_new net request o,
      In o (calls (Worker.worker_fetch URL_new net request)) ->
      Headers_get (Worker.out_headers o) "User-Agent" = Some Worker.user_agent
      /\ Worker.user_agent <> ""
      /\ exists ref, Headers_get (Worker.out_headers o) "Referer" = Some ref)
  /\ (forall net send_headers req res o,
         In o (fst (Server.stream_proxy net send_headers req res)) ->
         Headers_get (Server.call_headers o) "User-Agent" = Some "Mozilla/5.0"
         /\ "Mozilla/5.0" <> ""
         /\ exists ref, Headers_get (Server.call_headers o) "Referer" = Some ref)
  /\ (forall URL_new net request u ref r,
         URL_new (Worker.url request) = Normal u ->
         truthy (Worker.searchParams_get (Worker.searchParams u) "url") = true ->
         Worker.referrer_is URL_new u ref ->
         URL_new ref = Normal r ->
         exists o, calls (Worker.worker_fetch URL_new net request) = [o])
  /\ (forall net send_headers req res,
         Server.to_boolean (Server.query_get (Server.query req) "url") = true ->
         exists o, fst (Server.stream_proxy net send_headers req res) = [o]).
Proof.
  split; [|split; [|split]].
  - intros URL_new net request o Hin.
    destruct (worker_call_inv _ _ _ _ Hin) as (u & ref & r & _ & _ & _ & _ & -> & _).
    split; [reflexivity|]. split; [discriminate|]. exists ref. reflexivity.
  - intros net send_headers req res o Hin.
    destruct (server_call_inv _ _ _ _ _ Hin) as [_ ->].
    split; [reflexivity|]. split; [discriminate|]. eexists. reflexivity.
  - intros URL_new net request u ref r Hu Ht Href Hr.
    eexists. rewrite (worker_calls_out URL_new net request u ref r Hu Ht Href Hr).
    reflexivity.
  - intros net send_headers req res Ht.
  eexists. rewrite (server_calls_out net send_headers req res Ht).
    reflexivity.
Qed.

Lemma C7_user_agent_and_referer_witness :
  (exists o,
      calls (Worker.worker_fetch Host.URL_new (fun _ => Normal Samples.not_found)
               Samples.worker_get) = [o]
      /\ Headers_get (Worker.out_headers o) "User-Agent"
         = Some "Mozilla/5.0 (compatible; StreamProxy/1.0)"
      /\ exists ref, Headers_get (Worker.out_headers o) "Referer" = Some ref)
  /\ (exists o,
         fst (Server.stream_proxy (fun _ => Normal Samples.not_found) App.send_headers
                Samples.server_get Server.fresh_res) = [o]
         /\ Headers_get (Server.call_headers o) "User-Agent" = Some "Mozilla/5.0"
         /\ exists ref, Headers_get (Server.call_headers o) "Referer" = Some ref).
Proof.
  split.
  - destruct (proj1 (proj2 (proj2 C7_user_agent_and_referer)) Host.URL_new
                (fun _ => Normal Samples.not_found) Samples.worker_get
                (Worker.mkURL "https://proxy.example"
                   [ ("url", "https://example.com/live/a.m3u8") ])
                "https://example.com/" (Worker.mkURL "https://example.com" [])
                eq_refl eq_refl
                (or_intror (conj eq_refl
                   (ex_intro _ (Worker.mkURL "https://example.com" [])
                      (conj eq_refl eq_refl))))
                eq_refl) as [o Ho].
    exists o. split; [exact Ho|].
    destruct (proj1 C7_user_agent_and_referer Host.URL_new
                (fun _ => Normal Samples.not_found) Samples.worker_get o)
      as (Hua & _ & Href).
    + rewrite Ho. left. reflexivity.
    + split; [exact Hua | exact Href].
  - destruct (proj2 (proj2 (proj2 C7_user_agent_and_referer))
                (fun _ => Normal Samples.not_found) App.send_headers Samples.server_get
                Server.fresh_res eq_refl) as [o Ho].
    exists o. split; [exact Ho|].
    destruct (proj1 (proj2 C7_user_agent_and_referer)
                (fun _ => Normal Samples.not_found) App.send_headers Samples.server_get
                Server.fresh_res o)
      as (Hua & _ & Href).
    + rewrite Ho. left. reflexivity.
    + split; [exact Hua | exact Href].
Defined.

(** C8: in the edge-worker variant, on a request without a [url] parameter,
    where [new URL] throws on the string "null": when the [ref] parameter is
    absent or empty the handler ends in that exception, uncaught and without
    a response; and the handler returns the 400 response exactly when the
    [ref] parameter is non-empty. *)
Theorem C8_worker_missing_url :
  forall URL_new net request u e,
    URL_new (Worker.url request) = Normal u ->
    Worker.searchParams_get (Worker.searchParams u) "url" = None ->
    URL_new "null" = Throw e ->
    (truthy (Worker.searchParams_get (Worker.searchParams u) "ref") = false ->
     Worker.worker_fetch URL_new net request = ([], Throw e))
    /\ (Worker.worker_fetch URL_new net request
        = ([], Normal (mkResponse 400 [] (Text "Missing ?url=")))
        <-> truthy (Worker.searchParams_get (Worker.searchParams u) "ref") = true).
Proof.
  intros URL_new net request u e Hu Hurl Hnull.
  assert (Hthrow : truthy (Worker.searchParams_get (Worker.searchParams u) "ref") = false ->
                   Worker.worker_fetch URL_new net request = ([], Throw e)).
  { intro Href. apply (worker_line5_throws URL_new net request u e Hu Href).
    now rewrite Hurl. }
  split; [exact Hthrow|]. split.
  - intro Hrun.
    destruct (truthy (Worker.searchParams_get (Worker.searchParams u) "ref")) eqn:Href;
      [reflexivity|].
    rewrite (Hthrow eq_refl) in Hrun. discriminate.
  - intro Href.
    apply (worker_missing_target URL_new net request u
             (ToString (Worker.searchParams_get (Worker.searchParams u) "ref")) Hu).
    + now rewrite Hurl.
    + left. split; [exact Href|]. now destruct (truthy_ToString _ Href).
Qed.

Lemma C8_worker_missing_url_witness :
  Worker.worker_fetch Host.URL_new (fun _ => Normal Samples.not_found) Samples.worker_bare
  = ([], Throw Host.invalid_url)
  /\ Worker.worker_fetch Host.URL_new (fun _ => Normal Samples.not_found)
       Samples.worker_ref_only
     = ([], Normal (mkResponse 400 [] (Text "Missing ?url="))).
Proof.
  split.
  - apply (proj1 (C8_worker_missing_url Host.URL_new (fun _ => Normal Samples.not_found)
                    Samples.worker_bare (Worker.mkURL "https://proxy.example" [])
                    Host.invalid_url eq_refl eq_refl eq_refl)).
    reflexivity.
  - apply (proj2 (C8_worker_missing_url Host.URL_new (fun _ => Normal Samples.not_found)
                    Samples.worker_ref_only
                    (Worker.mkURL "https://proxy.example" [ ("ref", "https://site.example/") ])
                    Host.invalid_url eq_refl eq_refl eq_refl)).
    reflexivity.
Defined.

(** C9: in the standalone server variant, when the outbound fetch succeeds
    the handler leaves the response status as it found it, 200 on the response
    object the framework provides, whatever the upstream status; the only
    header it sets is Content-Type, from the upstream's content-type, and the
    upstream body is piped to the response. *)
Theorem C9_server_success :
  forall net send_headers req o upstream,
    In o (fst (Server.stream_proxy net send_headers req Server.fresh_res)) ->
    net o = Normal upstream ->
    snd (Server.stream_proxy net send_headers req Server.fresh_res)
    = Server.mkRes 200
        [ ("Content-Type", Headers_get (headers upstream) "content-type") ]
        (Server.Piped (body upstream))
    /\ forall res,
         Server.statusCode (snd (Server.stream_proxy net send_headers req res))
         = Server.statusCode res.
Proof.
  intros net send_headers req o upstream Hin Hnet.
  destruct (server_call_inv _ _ _ _ _ Hin) as [Ht ->]. split.
  - rewrite (server_calls_out net send_headers _ Server.fresh_res Ht). cbv zeta.
    rewrite Hnet. reflexivity.
  - intro res. rewrite (server_calls_out net send_headers _ res Ht). cbv zeta.
    rewrite Hnet. reflexivity.
Qed.

Lemma C9_server_success_witness :
  snd (Server.stream_proxy (fun _ => Normal Samples.not_found) App.send_headers
         Samples.server_get Server.fresh_res)
  = Server.mkRes 200 [ ("Content-Type", Some "video/mp2t") ]
      (Server.Piped (Stream [ "seg"; "ment" ])).
Proof.
  apply (proj1 (C9_server_success (fun _ => Normal Samples.not_found) App.send_headers Samples.server_get
                  (Server.fetch_call_of (Server.QString "https://example.com/live/a.m3u8"))
                  Samples.not_found (or_introl eq_refl) eq_refl)).
Defined.

(** C10: in both variants the outbound requests are determined by what the
    handler reads of the inbound request: in the edge worker the [url] and
    [ref] parameters and the Range header, in the standalone server the [url]
    parameter.  Two runs on requests that agree on these make the same
    outbound requests, same target and same headers, whatever else differs
    in the requests and whatever the network answers. *)
Theorem C10_outbound_determined :
  (forall URL_new net1 net2 request1 request2,
      Worker.inbound_view URL_new request1 = Worker.inbound_view URL_new request2 ->
      calls (Worker.worker_fetch URL_new net1 request1)
      = calls (Worker.worker_fetch URL_new net2 request2))
  /\ (forall net1 net2 send1 send2 req1 req2 res1 res2,
         Server.query_get (Server.query req1) "url"
         = Server.query_get (Server.query req2) "url" ->
         fst (Server.stream_proxy net1 send1 req1 res1)
         = fst (Server.stream_proxy net2 send2 req2 res2)).
Proof.
  split.
  - intros URL_new net1 net2 request1 request2 Hview.
    unfold Worker.inbound_view in Hview. injection Hview as Hparams Hrange.
    destruct (URL_new (Worker.url request1)) as [u1|e1] eqn:Hu1;
      destruct (URL_new (Worker.url request2)) as [u2|e2] eqn:Hu2;
      try discriminate.
    2:{ now rewrite (worker_request_url_throws _ _ _ _ Hu1),
                    (worker_request_url_throws _ _ _ _ Hu2). }
    injection Hparams as Hurl Href.
    unfold Worker.worker_fetch, Worker.referrer, Worker.fetch, bind, lift, ret, try_catch.
    rewrite Hu1, Hu2, Hurl, Href, Hrange. clear Hu1 Hu2.
    repeat (cbv beta iota zeta; cbn [app negb];
            match goal with
            | |- context [truthy ?v] => destruct (truthy v)
            | |- context [URL_new ?s] => destruct (URL_new s)
            | |- context [net1 ?o] => destruct (net1 o)
            | |- context [net2 ?o] => destruct (net2 o)
            | |- context [Response_new ?b ?c ?h] => destruct (Response_new b c h)
            end);
      reflexivity.
  - intros net1 net2 send1 send2 req1 req2 res1 res2 Hurl.
    unfold Server.stream_proxy. rewrite Hurl.
    destruct (Server.to_boolean _); cbn [negb]; [|reflexivity].
    destruct (net1 _), (net2 _); reflexivity.
Qed.

Lemma C10_outbound_determined_witness :
  calls (Worker.worker_fetch Host.URL_new (fun _ => Normal Samples.not_found)
           Samples.worker_get)
  = calls (Worker.worker_fetch Host.URL_new (fun _ => Throw Samples.connection_refused)
             Samples.worker_post)
  /\ fst (Server.stream_proxy (fun _ => Normal Samples.not_found) App.send_headers
            Samples.server_get Server.fresh_res)
     = fst (Server.stream_proxy (fun _ => Throw Samples.connection_refused)
              App.send_headers
              Samples.server_get_again (Server.res_status Server.fresh_res 204)).
Proof.
  split.
  - apply (proj1 C10_outbound_determined). reflexivity.
  - apply (proj2 C10_outbound_determined). reflexivity.
Defined.

(** * Further properties of the handlers *)

(** ** Every run of the edge-worker handler *)

Section WorkerRuns.

Import Worker.

Variable URL_new : string -> Completion URL.
Variable net : Outbound -> Completion Response.

(** The [catch] block always ends in a response. *)
Lemma relay_responds (answer : Completion Response) :
  exists resp, relay answer = Normal resp.
Proof.
  destruct answer as [upstream|err]; unfold relay.
  - destruct (Response_new (body upstream) (status upstream) (headers upstream));
      eexists; reflexivity.
  - eexists. reflexivity.
Qed.

(** The five paths through the handler. *)
Lemma worker_run_cases (request : Request) :
  (exists e, URL_new (url request) = Throw e
             /\ worker_fetch URL_new net request = ([], Throw e))
  \/ (exists u e,
         URL_new (url request) = Normal u
         /\ truthy (searchParams_get (searchParams u) "ref") = false
         /\ URL_new (ToString (searchParams_get (searchParams u) "url")) = Throw e
         /\ worker_fetch URL_new net request = ([], Throw e))
  \/ (exists u ref,
         URL_new (url request) = Normal u
         /\ truthy (searchParams_get (searchParams u) "url") = false
         /\ referrer_is URL_new u ref
         /\ worker_fetch URL_new net request
            = ([], Normal (mkResponse 400 [] (Text "Missing ?url="))))
  \/ (exists u ref e,
         URL_new (url request) = Normal u
         /\ truthy (searchParams_get (searchParams u) "url") = true
         /\ referrer_is URL_new u ref
         /\ URL_new ref = Throw e
         /\ worker_fetch URL_new net request
            = ([], Normal (mkResponse 500 [] (Text ("Proxy error: " ++ message e)))))
  \/ (exists u ref r,
         URL_new (url request) = Normal u
         /\ truthy (searchParams_get (searchParams u) "url") = true
         /\ referrer_is URL_new u ref
         /\ URL_new ref = Normal r
         /\ worker_fetch URL_new net request
            = ([outbound_of request
                  (ToString (searchParams_get (searchParams u) "url")) ref r],
               relay (net (outbound_of request
                             (ToString (searchParams_get (searchParams u) "url")) ref r)))).
Proof.
  destruct (URL_new (url request)) as [u|e] eqn:Hu.
  2:{ left. exists e. split; [reflexivity|]. now apply worker_request_url_throws. }
  right.
  assert (Hcases :
            (exists e, truthy (searchParams_get (searchParams u) "ref") = false
                       /\ URL_new (ToString (searchParams_get (searchParams u) "url")) = Throw e)
            \/ exists ref, referrer_is URL_new u ref).
  { unfold referrer_is.
    destruct (truthy (searchParams_get (searchParams u) "ref")) eqn:Href.
    - right. exists (ToString (searchParams_get (searchParams u) "ref")).
      left. split; [reflexivity|]. now destruct (truthy_ToString _ Href).
    - destruct (URL_new (ToString (searchParams_get (searchParams u) "url")))
        as [t|e] eqn:Ht.
      + right. exists (origin t ++ "/"). right. split; [reflexivity|].
        exists t. now split.
      + left. exists e. now split. }
  destruct Hcases as [[e [Href Ht]]|[ref Href]].
  { left. exists u, e. repeat split; try assumption.
    now apply (worker_line5_throws URL_new net request u e). }
  right.
  destruct (truthy (searchParams_get (searchParams u) "url")) eqn:Ht.
  2:{ left. exists u, ref. repeat split; try assumption.
      now apply (worker_missing_target URL_new net request u ref). }
  right.
  destruct (URL_new ref) as [r|e] eqn:Hr.
  - right. exists u, ref, r. repeat split; try assumption.
    now apply (worker_calls_out URL_new net request u ref r).
  - left. exists u, ref, e. repeat split; try assumption.
    now apply (worker_referrer_unparsed URL_new net request u ref e).
Qed.

End WorkerRuns.

(** X1: a run of the edge-worker handler has one of four shapes: an
    exception with no call made; the 400 response with no call made; a 500
    "Proxy error: " response with no call made; or exactly one outbound call
    whose answer the try/catch turns into the response. *)
Theorem worker_run_shapes :
  forall URL_new net request,
    (exists e, Worker.worker_fetch URL_new net request = ([], Throw e))
    \/ Worker.worker_fetch URL_new net request
       = ([], Normal (mkResponse 400 [] (Text "Missing ?url=")))
    \/ (exists e, Worker.worker_fetch URL_new net request
                  = ([], Normal (mkResponse 500 [] (Text ("Proxy error: " ++ message e)))))
    \/ (exists o resp, Worker.worker_fetch URL_new net request = ([o], Normal resp)
                       /\ Worker.relay (net o) = Normal resp).
Proof.
  intros URL_new net request.
  destruct (worker_run_cases URL_new net request)
    as [(e & _ & H)|[(u & e & _ & _ & _ & H)|[(u & ref & _ & _ & _ & H)
       |[(u & ref & e & _ & _ & _ & _ & H)|(u & ref & r & _ & _ & _ & _ & H)]]]].
  - left. now exists e.
  - left. now exists e.
  - right. left. exact H.
  - right. right. left. now exists e.
  - right. right. right.
    destruct (relay_responds (net (Worker.outbound_of request
                (ToString (Worker.searchParams_get (Worker.searchParams u) "url")) ref r)))
      as [resp Hresp].
    eexists. exists resp. rewrite H, Hresp. split; [reflexivity | exact Hresp].
Qed.

(** X2: the edge-worker handler ends in an exception exactly when the
    request URL does not parse, or when there is no non-empty [ref] and
    [new URL] throws on the target (line 5); the exception is the one
    [new URL] threw.  Nothing thrown inside the [try] escapes. *)
Theorem worker_throws_iff :
  forall URL_new net request e,
    completion (Worker.worker_fetch URL_new net request) = Throw e
    <-> (URL_new (Worker.url request) = Throw e
         \/ exists u,
             URL_new (Worker.url request) = Normal u
             /\ truthy (Worker.searchParams_get (Worker.searchParams u) "ref") = false
             /\ URL_new (ToString (Worker.searchParams_get (Worker.searchParams u) "url"))
                = Throw e).
Proof.
  intros URL_new net request e. split.
  - intro Hc.
    destruct (worker_run_cases URL_new net request)
      as [(e' & Hu & H)|[(u & e' & Hu & Href & Ht & H)|[(u & ref & _ & _ & _ & H)
         |[(u & ref & e' & _ & _ & _ & _ & H)|(u & ref & r & _ & _ & _ & _ & H)]]]];
      rewrite H in Hc; unfold completion in Hc; cbn [snd] in Hc.
    + left. congruence.
    + right. exists u. repeat split; congruence.
    + discriminate.
    + discriminate.
    + destruct (relay_responds (net (Worker.outbound_of request
                  (ToString (Worker.searchParams_get (Worker.searchParams u) "url")) ref r)))
        as [resp Hresp].
      rewrite Hresp in Hc. discriminate.
  - intros [Hu|(u & Hu & Href & Ht)].
    + now rewrite (worker_request_url_throws URL_new net request e Hu).
    + now rewrite (worker_line5_throws URL_new net request u e Hu Href Ht).
Qed.

Lemma worker_throws_iff_witness :
  completion (Worker.worker_fetch Host.URL_new (fun _ => Normal Samples.not_found)
                Samples.worker_malformed) = Throw Host.invalid_url.
Proof.
  apply (proj2 (worker_throws_iff Host.URL_new (fun _ => Normal Samples.not_found)
                  Samples.worker_malformed Host.invalid_url)).
  right. exists (Worker.mkURL "https://proxy.example" [ ("url", "not-a-url") ]).
  repeat split; reflexivity.
Defined.

(** X3: the edge-worker handler returns the 400 response without calling
    out exactly when the [url] parameter is absent or empty and line 5 yields
    a referrer (a non-empty [ref], or a target string that [new URL]
    accepts). *)
Theorem worker_400_iff :
  forall URL_new net request,
    Worker.worker_fetch URL_new net request
    = ([], Normal (mkResponse 400 [] (Text "Missing ?url=")))
    <-> exists u ref,
          URL_new (Worker.url request) = Normal u
          /\ truthy (Worker.searchParams_get (Worker.searchParams u) "url") = false
          /\ Worker.referrer_is URL_new u ref.
Proof.
  intros URL_new net request. split.
  - intro Hrun.
    destruct (worker_run_cases URL_new net request)
      as [(e' & Hu & H)|[(u & e' & Hu & Href & Ht & H)|[(u & ref & Hu & Ht & Href & H)
         |[(u & ref & e' & _ & _ & _ & _ & H)|(u & ref & r & _ & _ & _ & _ & H)]]]];
      rewrite H in Hrun; try discriminate.
    exists u, ref. now repeat split.
  - intros (u & ref & Hu & Ht & Href).
    now apply (worker_missing_target URL_new net request u ref).
Qed.

Lemma worker_400_iff_witness :
  Worker.worker_fetch Host.URL_new (fun _ => Normal Samples.not_found)
    Edge.worker_empty_url
  = ([], Normal (mkResponse 400 [] (Text "Missing ?url="))).
Proof.
  apply (proj2 (worker_400_iff Host.URL_new (fun _ => Normal Samples.not_found)
                  Edge.worker_empty_url)).
  exists (Worker.mkURL "https://proxy.example"
            [ ("url", ""); ("ref", "https://site.example/") ]),
         "https://site.example/".
  split; [reflexivity|]. split; [reflexivity|].
  left. split; reflexivity.
Defined.

(** X4: in the edge-worker variant, a non-empty [ref] that [new URL] rejects
    makes the handler answer 500 "Proxy error: " with that error's message,
    without calling out, whatever the target. *)
Theorem worker_bad_ref_500 :
  forall URL_new net request u e,
    URL_new (Worker.url request) = Normal u ->
    truthy (Worker.searchParams_get (Worker.searchParams u) "url") = true ->
    truthy (Worker.searchParams_get (Worker.searchParams u) "ref") = true ->
    URL_new (ToString (Worker.searchParams_get (Worker.searchParams u) "ref")) = Throw e ->
    Worker.worker_fetch URL_new net request
    = ([], Normal (mkResponse 500 [] (Text ("Proxy error: " ++ message e)))).
Proof.
  intros URL_new net request u e Hu Ht Href He.
  apply (worker_referrer_unparsed URL_new net request u
           (ToString (Worker.searchParams_get (Worker.searchParams u) "ref")) e Hu Ht);
    [|exact He].
  left. split; [exact Href|]. now destruct (truthy_ToString _ Href).
Qed.

Lemma worker_bad_ref_500_witness :
  Worker.worker_fetch Host.URL_new (fun _ => Normal Samples.not_found) Edge.worker_bad_ref
  = ([], Normal (mkResponse 500 [] (Text "Proxy error: Invalid URL"))).
Proof.
  apply (worker_bad_ref_500 Host.URL_new (fun _ => Normal Samples.not_found)
           Edge.worker_bad_ref
           (Worker.mkURL "https://proxy.example"
              [ ("url", "https://example.com/live/a.m3u8"); ("ref", "nowhere") ])
           Host.invalid_url).
  - reflexivity.
  - reflexivity.
  - reflexivity.
  - reflexivity.
Defined.

(** X5: in the edge-worker variant, with a non-empty [ref] that parses, the
    handler never parses the target: any non-empty [url] is handed to [fetch]
    as it is, with the [ref] verbatim as Referer and the [ref]'s origin as
    Origin, and the answer is relayed. *)
Theorem worker_ref_override :
  forall URL_new net request u t ref r,
    URL_new (Worker.url request) = Normal u ->
    Worker.searchParams_get (Worker.searchParams u) "url" = Some t ->
    t <> "" ->
    Worker.searchParams_get (Worker.searchParams u) "ref" = Some ref ->
    ref <> "" ->
    URL_new ref = Normal r ->
    let o := Worker.mkOutbound t
               [ ("User-Agent", Worker.user_agent);
                 ("Referer", ref);
                 ("Origin", Worker.origin r);
                 ("Range", or_else (Headers_get (Worker.req_headers request) "Range") "") ] in
    Worker.worker_fetch URL_new net request = ([o], Worker.relay (net o)).
Proof.
  intros URL_new net request u t ref r Hu Ht Hne Href Hrne Hr o.
  assert (Htt : truthy (Worker.searchParams_get (Worker.searchParams u) "url") = true).
  { rewrite Ht. destruct t; [now elim Hne | reflexivity]. }
  assert (Hrt : truthy (Worker.searchParams_get (Worker.searchParams u) "ref") = true).
  { rewrite Href. destruct ref; [now elim Hrne | reflexivity]. }
  pose proof (worker_calls_out URL_new net request u ref r Hu Htt
                (or_introl (conj Hrt Href)) Hr) as Hrun.
  cbv zeta in Hrun. rewrite Ht in Hrun. exact Hrun.
Qed.

Lemma worker_ref_override_witness :
  Worker.worker_fetch Host.URL_new (fun _ => Throw Samples.connection_refused)
    Edge.worker_override
  = ([ Worker.mkOutbound "not-a-url"
         [ ("User-Agent", "Mozilla/5.0 (compatible; StreamProxy/1.0)");
           ("Referer", "https://site.example/page");
           ("Origin", "https://site.example");
           ("Range", "bytes=100-") ] ],
     Normal (mkResponse 500 [] (Text "Proxy error: fetch failed"))).
Proof.
  apply (worker_ref_override Host.URL_new (fun _ => Throw Samples.connection_refused)
           Edge.worker_override
           (Worker.mkURL "https://proxy.example"
              [ ("url", "not-a-url"); ("ref", "https://site.example/page") ])
           "not-a-url" "https://site.example/page"
           (Worker.mkURL "https://site.example" [])).
  - reflexivity.
  - reflexivity.
  - discriminate.
  - reflexivity.
  - discriminate.
  - reflexivity.
Defined.

(** X6: in the edge-worker variant, the target of every outbound request is
    the [url] parameter of the request URL, verbatim and non-empty. *)
Theorem worker_target_verbatim :
  forall URL_new net request o,
    In o (calls (Worker.worker_fetch URL_new net request)) ->
    exists u,
      URL_new (Worker.url request) = Normal u
      /\ Worker.searchParams_get (Worker.searchParams u) "url" = Some (Worker.out_target o)
      /\ Worker.out_target o <> "".
Proof.
  intros URL_new net request o Hin.
  destruct (worker_call_inv _ _ _ _ Hin) as (u & ref & r & Hu & Ht & _ & _ & -> & _).
  exists u. split; [exact Hu|]. exact (truthy_ToString _ Ht).
Qed.

Lemma worker_target_verbatim_witness :
  exists u,
    Host.URL_new (Worker.url Samples.worker_get) = Normal u
    /\ Worker.searchParams_get (Worker.searchParams u) "url"
       = Some "https://example.com/live/a.m3u8"
    /\ "https://example.com/live/a.m3u8" <> "".
Proof.
  apply (worker_target_verbatim Host.URL_new (fun _ => Normal Samples.not_found)
           Samples.worker_get
           (Worker.outbound_of Samples.worker_get "https://example.com/live/a.m3u8"
              "https://example.com/" (Worker.mkURL "https://example.com" []))).
  left. reflexivity.
Defined.

(** X7: in the edge-worker variant the Origin header of every outbound
    request is the origin of the URL sent as Referer; in the standalone
    server the Origin header is the fixed Referer itself, slash included. *)
Theorem origin_follows_referer :
  (forall URL_new net request o,
      In o (calls (Worker.worker_fetch URL_new net request)) ->
      exists ref r,
        Headers_get (Worker.out_headers o) "Referer" = Some ref
        /\ URL_new ref = Normal r
        /\ Headers_get (Worker.out_headers o) "Origin" = Some (Worker.origin r))
  /\ (forall net send_headers req res o,
         In o (fst (Server.stream_proxy net send_headers req res)) ->
         Headers_get (Server.call_headers o) "Origin" = Some "https://fancode.com/"
         /\ Headers_get (Server.call_headers o) "Origin"
            = Headers_get (Server.call_headers o) "Referer").
Proof.
  split.
  - intros URL_new net request o Hin.
    destruct (worker_call_inv _ _ _ _ Hin) as (u & ref & r & _ & _ & _ & Hr & -> & _).
    exists ref, r. repeat split. exact Hr.
  - intros net send_headers req res o Hin.
    destruct (server_call_inv _ _ _ _ _ Hin) as [_ ->]. split; reflexivity.
Qed.

Lemma origin_follows_referer_witness :
  (exists ref r,
      Headers_get
        (Worker.out_headers
           (Worker.outbound_of Edge.worker_override "not-a-url"
              "https://site.example/page" (Worker.mkURL "https://site.example" [])))
        "Referer" = Some ref
      /\ Host.URL_new ref = Normal r
      /\ Headers_get
           (Worker.out_headers
              (Worker.outbound_of Edge.worker_override "not-a-url"
                 "https://site.example/page" (Worker.mkURL "https://site.example" [])))
           "Origin" = Some (Worker.origin r))
  /\ Headers_get
       (Server.call_headers
          (Server.fetch_call_of (Server.QString "https://example.com/live/a.m3u8")))
       "Origin" = Some "https://fancode.com/".
Proof.
  split.
  - apply (proj1 origin_follows_referer Host.URL_new (fun _ => Normal Samples.not_found)
             Edge.worker_override).
    left. reflexivity.
  - apply (proj2 origin_follows_referer (fun _ => Normal Samples.not_found)
             App.send_headers
             Samples.server_get Server.fresh_res).
    left. reflexivity.
Defined.

(** X8: the whole run of the edge-worker handler, calls and response, is
    the same on two requests that agree on the [url] and [ref] parameters
    and on the Range header: method, path, other parameters and other
    headers are ignored. *)
Theorem worker_ignores_rest :
  forall URL_new net request1 request2,
    Worker.inbound_view URL_new request1 = Worker.inbound_view URL_new request2 ->
    Worker.worker_fetch URL_new net request1 = Worker.worker_fetch URL_new net request2.
Proof.
  intros URL_new net request1 request2 Hview.
  unfold Worker.inbound_view in Hview. injection Hview as Hparams Hrange.
  destruct (URL_new (Worker.url request1)) as [u1|e1] eqn:Hu1;
    destruct (URL_new (Worker.url request2)) as [u2|e2] eqn:Hu2;
    try discriminate.
  - injection Hparams as Hurl Href.
    unfold Worker.worker_fetch, Worker.referrer, bind, lift.
    rewrite Hu1, Hu2, Hurl, Href, Hrange. reflexivity.
  - injection Hparams as <-.
    now rewrite (worker_request_url_throws _ _ _ _ Hu1),
                (worker_request_url_throws _ _ _ _ Hu2).
Qed.

Lemma worker_ignores_rest_witness :
  Worker.worker_fetch Host.URL_new (fun _ => Normal Samples.not_found) Samples.worker_get
  = Worker.worker_fetch Host.URL_new (fun _ => Normal Samples.not_found) Samples.worker_post.
Proof.
  apply worker_ignores_rest. reflexivity.
Defined.

(** X9: in the edge-worker variant, an upstream answer whose status is
    outside 200..599 is not passed through: [new Response] throws inside the
    [try], and the handler answers 500 "Proxy error: " with that message. *)
Theorem worker_status_out_of_range :
  forall URL_new net request o upstream,
    In o (calls (Worker.worker_fetch URL_new net request)) ->
    net o = Normal upstream ->
    status upstream < 200 \/ 599 < status upstream ->
    exists m,
      completion (Worker.worker_fetch URL_new net request)
      = Normal (mkResponse 500 [] (Text ("Proxy error: " ++ m))).
Proof.
  intros URL_new net request o upstream Hin Hnet Hout.
  assert (Hnew : exists err,
             Response_new (body upstream) (status upstream) (headers upstream) = Throw err).
  { unfold Response_new.
    assert (Hb : (status upstream <? 200) || (599 <? status upstream) = true).
    { apply orb_true_iff. destruct Hout as [H|H]; [left|right]; now apply Z.ltb_lt. }
    rewrite Hb. eexists. reflexivity. }
  destruct Hnew as [err Hnew]. exists (message err).
  exact (worker_upstream_refused URL_new net request o upstream err Hin Hnet Hnew).
Qed.

Lemma worker_status_out_of_range_witness :
  exists m,
    completion (Worker.worker_fetch Host.URL_new (fun _ => Normal Edge.status_999)
                  Samples.worker_get)
    = Normal (mkResponse 500 [] (Text ("Proxy error: " ++ m))).
Proof.
  apply (worker_status_out_of_range Host.URL_new (fun _ => Normal Edge.status_999)
           Samples.worker_get
           (Worker.outbound_of Samples.worker_get "https://example.com/live/a.m3u8"
              "https://example.com/" (Worker.mkURL "https://example.com" []))
           Edge.status_999).
  - left. reflexivity.
  - reflexivity.
  - right. reflexivity.
Defined.

(** X10: neither handler calls out more than once for a request: there is
    no retry and no second fetch. *)
Theorem at_most_one_call :
  (forall URL_new net request,
      (length (calls (Worker.worker_fetch URL_new net request)) <= 1)%nat)
  /\ (forall net send_headers req res,
         (length (fst (Server.stream_proxy net send_headers req res)) <= 1)%nat).
Proof.
  split.
  - intros URL_new net request.
    destruct (worker_run_cases URL_new net request)
      as [(e & _ & H)|[(u & e & _ & _ & _ & H)|[(u & ref & _ & _ & _ & H)
         |[(u & ref & e & _ & _ & _ & _ & H)|(u & ref & r & _ & _ & _ & _ & H)]]]];
      rewrite H; cbn; lia.
  - intros net send_headers req res.
    destruct (Server.to_boolean (Server.query_get (Server.query req) "url")) eqn:Ht.
    + rewrite (server_calls_out net send_headers req res Ht). cbn. lia.
    + rewrite (server_missing_target net send_headers req res Ht). cbn. lia.
Qed.

(** ** Every run of the Express handler *)

(** X12: on the response object the framework provides, the status the
    Express handler leaves is 400 exactly when the [url] value is falsy, 500
    exactly when the fetch of a truthy [url] throws, and 200 exactly when
    that fetch is answered. *)
Theorem server_status_cases :
  forall net send_headers req,
    let target := Server.query_get (Server.query req) "url" in
    let code := Server.statusCode (snd (Server.stream_proxy net send_headers req Server.fresh_res)) in
    (code = 400 <-> Server.to_boolean target = false)
    /\ (code = 500 <->
        Server.to_boolean target = true
        /\ exists e, net (Server.fetch_call_of target) = Throw e)
    /\ (code = 200 <->
        Server.to_boolean target = true
        /\ exists upstream, net (Server.fetch_call_of target) = Normal upstream).
Proof.
  intros net send_headers req target code. subst code.
  destruct (Server.to_boolean target) eqn:Ht; subst target.
  - rewrite (server_calls_out net send_headers req Server.fresh_res Ht).
  cbv zeta. cbn [snd].
    destruct (net _) as [upstream|e]; cbn.
    + split; [|split]; split; try discriminate.
      * intros [_ [e He]]. discriminate.
      * intros _. split; [reflexivity|]. now exists upstream.
      * reflexivity.
    + split; [|split]; split; try discriminate.
      * intros _. split; [reflexivity|]. now exists e.
      * reflexivity.
      * intros [_ [upstream Hup]]. discriminate.
  - rewrite (server_missing_target net send_headers req Server.fresh_res Ht). cbn.
    split; [|split]; split; try discriminate; try reflexivity.
    + intros [H _]. discriminate.
    + intros [H _]. discriminate.
Qed.

Lemma server_status_cases_witness :
  Server.statusCode
    (snd (Server.stream_proxy (fun _ => Normal Samples.not_found) App.send_headers
            Edge.server_empty_url Server.fresh_res)) = 400
  /\ Server.statusCode
       (snd (Server.stream_proxy (fun _ => Throw Samples.connection_refused)
               App.send_headers
               Samples.server_get Server.fresh_res)) = 500.
Proof.
  split.
  - apply (proj2 (proj1 (server_status_cases (fun _ => Normal Samples.not_found)
                           App.send_headers
                           Edge.server_empty_url))).
    reflexivity.
  - apply (proj2 (proj1 (proj2 (server_status_cases
                                  (fun _ => Throw Samples.connection_refused)
                                  App.send_headers
                                  Samples.server_get)))).
    split; [reflexivity|]. exists Samples.connection_refused. reflexivity.
Defined.

(** X13: the Express handler tests the [url] value for truthiness only: an
    empty string is refused with 400 like a missing one, while an array or
    an object, as the query parser builds for repeated or bracketed keys, is
    handed to [fetch] as it is. *)
Theorem server_url_value_kinds :
  forall net send_headers req res,
    (Server.query_get (Server.query req) "url" = Server.QString "" ->
     Server.stream_proxy net send_headers req res
     = ([], Server.res_send send_headers (Server.res_status res 400) "Missing url param"))
    /\ (forall items,
           Server.query_get (Server.query req) "url" = Server.QArray items ->
           fst (Server.stream_proxy net send_headers req res)
           = [Server.fetch_call_of (Server.QArray items)])
    /\ (forall fields,
           Server.query_get (Server.query req) "url" = Server.QObject fields ->
           fst (Server.stream_proxy net send_headers req res)
           = [Server.fetch_call_of (Server.QObject fields)]).
Proof.
  intros net send_headers req res. split; [|split].
  - intro H. apply server_missing_target. now rewrite H.
  - intros items H.
    rewrite (server_calls_out net send_headers req res); [now rewrite H | now rewrite H].
  - intros fields H.
    rewrite (server_calls_out net send_headers req res); [now rewrite H | now rewrite H].
Qed.

Lemma server_url_value_kinds_witness :
  Server.stream_proxy (fun _ => Normal Samples.not_found) App.send_headers Edge.server_empty_url
    Server.fresh_res
  = ([], Server.res_send App.send_headers (Server.res_status Server.fresh_res 400)
           "Missing url param")
  /\ fst (Server.stream_proxy (fun _ => Normal Samples.not_found) App.send_headers
            Edge.server_repeated_url Server.fresh_res)
     = [Server.fetch_call_of
          (Server.QArray [ Server.QString "a"; Server.QString "b" ])].
Proof.
  split.
  - apply (proj1 (server_url_value_kinds (fun _ => Normal Samples.not_found)
                    App.send_headers
                    Edge.server_empty_url Server.fresh_res)).
    reflexivity.
  - apply (proj1 (proj2 (server_url_value_kinds (fun _ => Normal Samples.not_found)
                           App.send_headers
                           Edge.server_repeated_url Server.fresh_res))).
    reflexivity.
Defined.

(** X14: the whole run of the Express handler, call and response, is the
    same on two requests with the same [url] value: request headers (Range
    among them) and other query parameters ([ref] among them) are ignored. *)
Theorem server_ignores_rest :
  forall net send_headers req1 req2 res,
    Server.query_get (Server.query req1) "url"
    = Server.query_get (Server.query req2) "url" ->
    Server.stream_proxy net send_headers req1 res = Server.stream_proxy net send_headers req2 res.
Proof.
  intros net send_headers req1 req2 res H. unfold Server.stream_proxy. now rewrite H.
Qed.

Lemma server_ignores_rest_witness :
  Server.stream_proxy (fun _ => Normal Samples.not_found) App.send_headers Samples.server_get
    Server.fresh_res
  = Server.stream_proxy (fun _ => Normal Samples.not_found) App.send_headers Samples.server_get_again
      Server.fresh_res.
Proof.
  apply server_ignores_rest. reflexivity.
Defined.
